(** * Training history ledger ([flwr.server.history])

    A shallow embedding of the [History] class of
    [src/py/flwr/server/history.py] and the properties of its append
    operations and of its two reports.

    Data model: a Python [int] is a [Z], a Python [float] is a binary64
    primitive float, a [list] of tuples is a [list] of pairs, a [dict]
    with text keys is a [gmap string _].  Methods are computations in a
    state-and-exception monad over the object [self].  What [numpy] does
    with the values of a series is given per value type by the class
    [Numpy]; for [float] values it is spelled out. *)

From Stdlib Require Import PrimFloat Ascii String.
From stdpp Require Import gmap strings list fin_maps pretty.

#[local] Set Warnings "-inexact-float".

Local Open Scope string_scope.
Local Open Scope Z_scope.
Local Open Scope list_scope.

(** ** Python results: a value or a raised exception *)

Inductive exn : Type :=
  | IndexError
  | TypeError
  | AttributeError
  | ValueError.

Inductive result (A : Type) : Type :=
  | Ok (a : A)
  | Raise (e : exn).
Arguments Ok {A} a.
Arguments Raise {A} e.

Global Instance result_ret : MRet result := @Ok.
Global Instance result_bind : MBind result := λ A B f r,
  match r with
  | Ok a => f a
  | Raise e => Raise e
  end.

(** [bool(container)] is [len(container) != 0]. *)
Definition truthy (len : nat) : bool := negb (Nat.eqb len 0%nat).

(** The two control characters of the report strings. *)
Definition nl : string := String "010"%char EmptyString.
Definition tab : string := String "009"%char EmptyString.

(** ** Arrays of [numpy] *)

(** The element types [np.array] can pick for a series. *)
Inductive dtype : Type :=
  | bool_
  | int64
  | uint64
  | float64
  | str_
  | bytes_
  | object_.

(** What [numpy] does with a series of pairs (round index, value) whose
    values have type [V]:
    - [np_dtype]: the element type [np.array] picks for a series that is
      not empty, from all its round indices and values; [None] when
      [np.array] raises [ValueError] instead;
    - [round_is_zero]: whether a round index, as stored with that element
      type, compares equal to 0;
    - [value_tolist]: the Python value that [tolist()] of a slice gives
      for a value stored with that element type;
    - [item_tolist]: the Python value that [tolist()] of a single element
      gives, [None] when the element has no [tolist] (a plain Python
      object kept in an [object_] array) and the call raises
      [AttributeError]. *)
Class Numpy (V : Type) : Type := {
  np_dtype : list (Z * V) → option dtype;
  round_is_zero : dtype → Z → bool;
  value_tolist : dtype → V → V;
  item_tolist : dtype → V → option V;
}.

(** The round indices a 64-bit integer element can hold: those of
    [int64] and [uint64], from -2^63 to 2^64 - 1. *)
Definition fits_64_bits (r : Z) : bool :=
  (-9223372036854775808 <=? r)%Z && (r <? 18446744073709551616)%Z.

(** Series of Python floats.  [np.array] stores a round index that fits
    64 bits as a 64-bit integer and a Python float as [float64], so the
    array of a series whose round indices all fit is a [float64] array;
    one round index outside 64 bits makes it an [object_] array of the
    Python objects themselves.  In a [float64] array the values are
    stored as they are, and a round index is stored as the binary64
    number nearest to it, which is 0 for the round index 0 only; the
    elements of an [object_] array are Python floats, which have no
    [tolist]. *)
Global Instance numpy_float : Numpy float := {
  np_dtype series :=
    Some (if forallb fits_64_bits series.*1 then float64 else object_);
  round_is_zero dt r := (r =? 0)%Z;
  value_tolist dt v := v;
  item_tolist dt v :=
    match dt with
    | object_ => None
    | _ => Some v
    end;
}.

(** The array [np.array(object)] of a series. *)
Inductive ndarray (V : Type) : Type :=
  | Array1D_empty
  | Array2D (dt : dtype) (rows : list (Z * V)).
Arguments Array1D_empty {V}.
Arguments Array2D {V} dt rows.

(** [np.array(object)]: the array of the empty list has one axis and no
    element; the array of a series that is not empty has one row for each
    pair. *)
Definition np_array {V : Type} `{!Numpy V} (object : list (Z * V))
  : result (ndarray V) :=
  match object with
  | [] => Ok Array1D_empty
  | _ :: _ =>
      match np_dtype object with
      | Some dt => Ok (Array2D dt object)
      | None => Raise ValueError
      end
  end.

(** ** The values of the structured report *)

(** A value stored under a key by [reformat_json]: the single start value
    or the list of per-round values. *)
Inductive jv (V : Type) : Type :=
  | JScalar (v : V)
  | JList (vs : list V).
Arguments JScalar {V} v.
Arguments JList {V} vs.

(** [reformat_json].  [temp_all[0,0]] raises [IndexError] on the array of
    the empty series, which has one axis only.  When the first round index
    is 0 the rounds are read first, and [temp_all[0,1].tolist()] then
    raises [AttributeError] if the element has no [tolist]. *)
Definition reformat_json {V : Type} `{!Numpy V} (bad_array : list (Z * V))
  : result (gmap string (jv V)) :=
  temp_all ← np_array bad_array;
  let temp : gmap string (jv V) := ∅ in
  match temp_all with
  | Array1D_empty => Raise IndexError
  | Array2D dt rows =>
      match rows !! 0%nat with
      | None => Raise IndexError
      | Some (round0, value0) =>
          if round_is_zero dt round0 then
            let temp :=
              <["rounds" := JList (value_tolist dt <$> (drop 1 rows).*2)]> temp in
            match item_tolist dt value0 with
            | Some start =>
                let temp := <["start" := JScalar start]> temp in
                Ok temp
            | None => Raise AttributeError
            end
          else
            let temp := <["rounds" := JList (value_tolist dt <$> rows.*2)]> temp in
            Ok temp
      end
  end.

(** The dict literal [{"start": v, "rounds": vs}]. *)
Definition dict_start_rounds {V : Type} (v : V) (vs : list V)
  : gmap string (jv V) :=
  <["rounds" := JList vs]> (<["start" := JScalar v]> ∅).

(** The dict literal [{"rounds": vs}]. *)
Definition dict_rounds {V : Type} (vs : list V) : gmap string (jv V) :=
  <["rounds" := JList vs]> ∅.

(** [functools.reduce(function, iterable)] without an initial value. *)
Definition reduce {A : Type} (function : A → A → A) (iterable : list A)
  : result A :=
  match iterable with
  | [] => Raise TypeError
  | a :: rest => Ok (foldl function a rest)
  end.

(** The lines of a section body put one after the other. *)
Definition join_lines (lines : list string) : string :=
  foldr String.append "" lines.

Section Ledger.

(** [flwr.common.typing.Scalar]: the ledger stores metric values and
    never inspects them; [numpy] does, when a report is made. *)
Context {Scalar : Type} `{!Numpy Scalar}.

(** The text Python gives a float in an f-string, and the text
    [pprint.pformat] gives a metric table. *)
Variable str_float : float → string.
Variable pformat : gmap string (list (Z * Scalar)) → string.

Record History : Type := mkHistory {
  losses_distributed : list (Z * float);
  losses_centralized : list (Z * float);
  metrics_distributed_fit : gmap string (list (Z * Scalar));
  metrics_distributed : gmap string (list (Z * Scalar));
  metrics_centralized : gmap string (list (Z * Scalar));
}.

Definition __init__ : History := mkHistory [] [] ∅ ∅ ∅.

(** *** Methods: state ([self]) and exceptions *)

Definition M (A : Type) : Type := History → result A * History.

Global Instance M_ret : MRet M := λ A a self, (Ok a, self).
Global Instance M_bind : MBind M := λ A B f m self,
  match m self with
  | (Ok a, self') => f a self'
  | (Raise e, self') => (Raise e, self')
  end.

Definition gets {A : Type} (field : History → A) : M A :=
  λ self, (Ok (field self), self).
Definition modify (f : History → History) : M () :=
  λ self, (Ok (), f self).
Definition lift {A : Type} (r : result A) : M A :=
  λ self, (r, self).

Definition eval {A : Type} (m : M A) (self : History) : result A := (m self).1.
Definition exec {A : Type} (m : M A) (self : History) : History := (m self).2.

(** *** The five append operations *)

Definition add_loss_distributed (server_round : Z) (loss : float) : M () :=
  modify (λ self,
    mkHistory (losses_distributed self ++ [(server_round, loss)])
              (losses_centralized self)
              (metrics_distributed_fit self)
              (metrics_distributed self)
              (metrics_centralized self)).

Definition add_loss_centralized (server_round : Z) (loss : float) : M () :=
  modify (λ self,
    mkHistory (losses_distributed self)
              (losses_centralized self ++ [(server_round, loss)])
              (metrics_distributed_fit self)
              (metrics_distributed self)
              (metrics_centralized self)).

(** The body of the loop [for key in metrics] that the three metrics
    operations share, on the table [table] of the operation:
    [if key not in table: table[key] = []] and then
    [table[key].append((server_round, metrics[key]))]. *)
Definition append_metric (server_round : Z) (key : string) (value : Scalar)
    (table : gmap string (list (Z * Scalar)))
  : gmap string (list (Z * Scalar)) :=
  let table :=
    match table !! key with
    | None => <[key := []]> table
    | Some _ => table
    end in
  alter (λ series, series ++ [(server_round, value)]) key table.

Definition add_metrics (server_round : Z) (metrics : gmap string Scalar)
    (table : gmap string (list (Z * Scalar)))
  : gmap string (list (Z * Scalar)) :=
  map_fold (append_metric server_round) table metrics.

Definition add_metrics_distributed_fit (server_round : Z)
    (metrics : gmap string Scalar) : M () :=
  modify (λ self,
    mkHistory (losses_distributed self)
              (losses_centralized self)
              (add_metrics server_round metrics (metrics_distributed_fit self))
              (metrics_distributed self)
              (metrics_centralized self)).

Definition add_metrics_distributed (server_round : Z)
    (metrics : gmap string Scalar) : M () :=
  modify (λ self,
    mkHistory (losses_distributed self)
              (losses_centralized self)
              (metrics_distributed_fit self)
              (add_metrics server_round metrics (metrics_distributed self))
              (metrics_centralized self)).

Definition add_metrics_centralized (server_round : Z)
    (metrics : gmap string Scalar) : M () :=
  modify (λ self,
    mkHistory (losses_distributed self)
              (losses_centralized self)
              (metrics_distributed_fit self)
              (metrics_distributed self)
              (add_metrics server_round metrics (metrics_centralized self))).

(** *** The structured report *)

(** A section of the structured report: the transform of a loss series,
    or the transforms of the series of a metric table by metric name. *)
Inductive section_value : Type :=
  | LossSection (d : gmap string (jv float))
  | MetricsSection (d : gmap string (gmap string (jv Scalar))).

(** [temp = {}] and the loop
    [for x in table.keys(): temp.update({x: self.reformat_json(table[x])})].
    When [reformat_json] raises on the series of several names, the code
    raises for the name its dict lists first; a table keeps no such order,
    and the loop here raises for one of these names. *)
Definition reformat_table (table : gmap string (list (Z * Scalar)))
  : result (gmap string (gmap string (jv Scalar))) :=
  map_fold
    (λ x series acc,
       temp ← acc;
       d ← reformat_json series;
       mret (<[x := d]> temp))
    (Ok ∅) table.

Definition repr_json : M (gmap string section_value) :=
  let rep : gmap string section_value := ∅ in
  losses ← gets losses_distributed;
  rep ← (if truthy (length losses) then
           d ← lift (reformat_json losses);
           mret (<["History (loss, distributed)" := LossSection d]> rep)
         else mret rep);
  losses ← gets losses_centralized;
  rep ← (if truthy (length losses) then
           d ← lift (reformat_json losses);
           mret (<["History (loss, centralized)" := LossSection d]> rep)
         else mret rep);
  table ← gets metrics_distributed_fit;
  rep ← (if truthy (size table) then
           temp ← lift (reformat_table table);
           mret (<["History (metrics, distributed, fit)" := MetricsSection temp]> rep)
         else mret rep);
  table ← gets metrics_distributed;
  rep ← (if truthy (size table) then
           temp ← lift (reformat_table table);
           mret (<["History (metrics, distributed, evaluate)" := MetricsSection temp]> rep)
         else mret rep);
  table ← gets metrics_centralized;
  rep ← (if truthy (size table) then
           temp ← lift (reformat_table table);
           mret (<["History (metrics, centralized)" := MetricsSection temp]> rep)
         else mret rep);
  mret rep.

(** *** The text report *)

(** [f"\tround {server_round}: {loss}\n"] *)
Definition loss_line (entry : Z * float) : string :=
  let '(server_round, loss) := entry in
  tab +:+ "round " +:+ pretty server_round +:+ ": " +:+ str_float loss +:+ nl.

Definition __repr__ : M string :=
  let rep : string := "" in
  losses ← gets losses_distributed;
  rep ← (if truthy (length losses) then
           body ← lift (reduce String.append (loss_line <$> losses));
           mret (rep +:+ ("History (loss, distributed):" +:+ nl +:+ body))
         else mret rep);
  losses ← gets losses_centralized;
  rep ← (if truthy (length losses) then
           body ← lift (reduce String.append (loss_line <$> losses));
           mret (rep +:+ ("History (loss, centralized):" +:+ nl +:+ body))
         else mret rep);
  table ← gets metrics_distributed_fit;
  rep ← (if truthy (size table) then
           mret (rep +:+ ("History (metrics, distributed, fit):" +:+ nl
                          +:+ pformat table +:+ nl))
         else mret rep);
  table ← gets metrics_distributed;
  rep ← (if truthy (size table) then
           mret (rep +:+ ("History (metrics, distributed, evaluate):" +:+ nl
                          +:+ pformat table +:+ nl))
         else mret rep);
  table ← gets metrics_centralized;
  rep ← (if truthy (size table) then
           mret (rep +:+ ("History (metrics, centralized):" +:+ nl
                          +:+ pformat table))
         else mret rep);
  mret rep.

(** *** Sequences of append calls *)

Inductive call : Type :=
  | AddLossDistributed (server_round : Z) (loss : float)
  | AddLossCentralized (server_round : Z) (loss : float)
  | AddMetricsDistributedFit (server_round : Z) (metrics : gmap string Scalar)
  | AddMetricsDistributed (server_round : Z) (metrics : gmap string Scalar)
  | AddMetricsCentralized (server_round : Z) (metrics : gmap string Scalar).

Definition perform (c : call) : M () :=
  match c with
  | AddLossDistributed r l => add_loss_distributed r l
  | AddLossCentralized r l => add_loss_centralized r l
  | AddMetricsDistributedFit r m => add_metrics_distributed_fit r m
  | AddMetricsDistributed r m => add_metrics_distributed r m
  | AddMetricsCentralized r m => add_metrics_centralized r m
  end.

(** The ledger after the calls [calls], made in order on [self]. *)
Definition run (calls : list call) (self : History) : History :=
  foldl (λ self c, exec (perform c) self) self calls.

End Ledger.

Arguments History Scalar : clear implicits.
Arguments M Scalar A : clear implicits.
Arguments call Scalar : clear implicits.
Arguments section_value Scalar : clear implicits.

(** ** Vocabulary of the statements *)

(** The three metric tables of a ledger. *)
Inductive table_id : Type :=
  | Fit
  | Evaluate
  | Centralized.

Section Vocabulary.

Context {Scalar : Type}.

Definition table_of (t : table_id) (self : History Scalar)
  : gmap string (list (Z * Scalar)) :=
  match t with
  | Fit => metrics_distributed_fit self
  | Evaluate => metrics_distributed self
  | Centralized => metrics_centralized self
  end.

(** The pairs a call sequence hands to each loss operation, in call order. *)
Definition loss_distributed_log (calls : list (call Scalar)) : list (Z * float) :=
  omap (λ c, match c with
             | AddLossDistributed r l => Some (r, l)
             | _ => None
             end) calls.

Definition loss_centralized_log (calls : list (call Scalar)) : list (Z * float) :=
  omap (λ c, match c with
             | AddLossCentralized r l => Some (r, l)
             | _ => None
             end) calls.

(** The pair a call hands to the series of [key] in table [t], if any. *)
Definition metric_entry (t : table_id) (key : string) (c : call Scalar)
  : option (Z * Scalar) :=
  match t, c with
  | Fit, AddMetricsDistributedFit r m => (λ v, (r, v)) <$> m !! key
  | Evaluate, AddMetricsDistributed r m => (λ v, (r, v)) <$> m !! key
  | Centralized, AddMetricsCentralized r m => (λ v, (r, v)) <$> m !! key
  | _, _ => None
  end.

Definition metrics_log (t : table_id) (key : string)
    (calls : list (call Scalar)) : list (Z * Scalar) :=
  omap (metric_entry t key) calls.

(** Which calls count for a series. *)
Definition is_add_loss_distributed (c : call Scalar) : bool :=
  match c with AddLossDistributed _ _ => true | _ => false end.

Definition is_add_loss_centralized (c : call Scalar) : bool :=
  match c with AddLossCentralized _ _ => true | _ => false end.

Definition passes_key (t : table_id) (key : string) (c : call Scalar) : bool :=
  match t, c with
  | Fit, AddMetricsDistributedFit _ m => bool_decide (key ∈ dom m)
  | Evaluate, AddMetricsDistributed _ m => bool_decide (key ∈ dom m)
  | Centralized, AddMetricsCentralized _ m => bool_decide (key ∈ dom m)
  | _, _ => false
  end.

Definition number_of_calls (p : call Scalar → bool) (calls : list (call Scalar))
  : nat :=
  length (List.filter p calls).

(** A series of a table after more pairs were appended to it: the key is
    absent as long as nothing was appended. *)
Definition grown {A : Type} (series : option (list A)) (more : list A)
  : option (list A) :=
  match more with
  | [] => series
  | _ :: _ => Some (default [] series ++ more)
  end.

(** The stored length of a series, 0 for an absent key. *)
Definition series_length {A : Type} (series : option (list A)) : nat :=
  length (default [] series).

End Vocabulary.

(** ** Vocabulary of the reports *)

(** The names of the five sections, in report order. *)
Definition name_loss_distributed : string := "History (loss, distributed)".
Definition name_loss_centralized : string := "History (loss, centralized)".
Definition name_metrics_fit : string := "History (metrics, distributed, fit)".
Definition name_metrics_evaluate : string := "History (metrics, distributed, evaluate)".
Definition name_metrics_centralized : string := "History (metrics, centralized)".

Definition section_names : list string :=
  [ name_loss_distributed; name_loss_centralized; name_metrics_fit;
    name_metrics_evaluate; name_metrics_centralized ].

(** A section of the text report: nothing when the section is absent, else
    the header line naming it and then its body. *)
Definition text_section (present : bool) (name body : string) : string :=
  if present then name +:+ ":" +:+ nl +:+ body else "".



Section ReportVocabulary.

Context {Scalar : Type} `{!Numpy Scalar}.

(** The three metrics sections of the text report. *)
Definition metrics_text (pformat : gmap string (list (Z * Scalar)) → string)
    (self : History Scalar) : string :=
  text_section (bool_decide (metrics_distributed_fit self ≠ ∅))
    name_metrics_fit (pformat (metrics_distributed_fit self) +:+ nl)
  +:+ text_section (bool_decide (metrics_distributed self ≠ ∅))
    name_metrics_evaluate (pformat (metrics_distributed self) +:+ nl)
  +:+ text_section (bool_decide (metrics_centralized self ≠ ∅))
    name_metrics_centralized (pformat (metrics_centralized self)).

(** The entry of a loss section in the structured report [rep]: absent
    for an empty series, else what [reformat_json] returns on the series. *)
Definition loss_section_ok (name : string) (series : list (Z * float))
    (rep : gmap string (section_value Scalar)) : Prop :=
  match series with
  | [] => rep !! name = None
  | _ :: _ =>
      ∃ d, reformat_json series = Ok d ∧ rep !! name = Some (LossSection d)
  end.

(** The entry of a metrics section in [rep]: absent for an empty table,
    else a mapping with the names of the table, each name to what
    [reformat_json] returns on the series of that name. *)
Definition metrics_section_ok (name : string)
    (table : gmap string (list (Z * Scalar)))
    (rep : gmap string (section_value Scalar)) : Prop :=
  if decide (table = ∅) then rep !! name = None
  else
    ∃ temp, rep !! name = Some (MetricsSection temp)
      ∧ dom temp = dom table
      ∧ ∀ x series, table !! x = Some series →
          ∃ d, reformat_json series = Ok d ∧ temp !! x = Some d.

(** No metric name of the ledger has an empty series. *)
Definition no_empty_series (self : History Scalar) : Prop :=
  ∀ t key series, table_of t self !! key = Some series → series ≠ [].

(** A computation that leaves the ledger as it found it. *)
Definition preserves {A : Type} (m : M Scalar A) : Prop :=
  ∀ self, exec m self = self.

(** The entries of a structured report [rep] of the ledger: those of the
    five sections, and no other key. *)
Definition report_sections (self : History Scalar)
    (rep : gmap string (section_value Scalar)) : Prop :=
  loss_section_ok name_loss_distributed (losses_distributed self) rep
  ∧ loss_section_ok name_loss_centralized (losses_centralized self) rep
  ∧ metrics_section_ok name_metrics_fit (metrics_distributed_fit self) rep
  ∧ metrics_section_ok name_metrics_evaluate (metrics_distributed self) rep
  ∧ metrics_section_ok name_metrics_centralized (metrics_centralized self) rep
  ∧ ∀ key, is_Some (rep !! key) → key ∈ section_names.

(** [reformat_json] returns a dict on every series [repr_json] passes to
    it: each loss series that is not empty and the series of each metric
    name. *)
Definition transforms_succeed (self : History Scalar) : Prop :=
  (losses_distributed self ≠ [] →
     ∃ d, reformat_json (losses_distributed self) = Ok d)
  ∧ (losses_centralized self ≠ [] →
       ∃ d, reformat_json (losses_centralized self) = Ok d)
  ∧ ∀ t key series, table_of t self !! key = Some series →
      ∃ d, reformat_json series = Ok d.

(** [reformat_json] raises [e] on a series [repr_json] passes to it. *)
Definition raised_by (self : History Scalar) (e : exn) : Prop :=
  (losses_distributed self ≠ []
   ∧ reformat_json (losses_distributed self) = Raise e)
  ∨ (losses_centralized self ≠ []
     ∧ reformat_json (losses_centralized self) = Raise e)
  ∨ ∃ t key series, table_of t self !! key = Some series
      ∧ reformat_json series = Raise e.


End ReportVocabulary.

(** All round indices of a series fit 64 bits. *)
Definition all_fit {V : Type} (series : list (Z * V)) : bool :=
  forallb fits_64_bits series.*1.


(** ** Sample data *)

(** The text of the float 0.5 (the one loss of [sample_one_loss]), and the
    text of an empty table. *)
Definition str_float_sample (x : float) : string := "0.5".
Definition pformat_sample (table : gmap string (list (Z * float))) : string := "{}".

(** The ledger after [add_loss_distributed(1, 0.5)]. *)
Definition sample_one_loss : History float :=
  run [AddLossDistributed 1 0.5%float] __init__.

(** A call that passes the metric name [accuracy] to the fit table, and
    later calls that do not. *)
Definition sample_fit_call : call float :=
  AddMetricsDistributedFit 1 {[ "accuracy" := 0.5%float ]}.
Definition sample_later_calls : list (call float) :=
  [ AddLossDistributed 2 0.25%float;
    AddMetricsDistributedFit 2 {[ "recall" := 0.75%float ]};
    AddMetricsDistributed 2 {[ "accuracy" := 0.125%float ]} ].


(** The structured reports before and after [sample_fit_call], made on the
    ledger of [sample_one_loss]. *)
Definition sample_report_before : gmap string (section_value float) :=
  {[ name_loss_distributed := LossSection (dict_rounds [0.5%float]) ]}.
Definition sample_report_after : gmap string (section_value float) :=
  <[ name_metrics_fit :=
       MetricsSection {[ "accuracy" := dict_rounds [0.5%float] ]} ]>
    sample_report_before.

(** ** Vocabulary of the further properties *)

(** The values a dict returned by [reformat_json] holds: the value under
    [start], if any, and the list under [rounds]. *)
Definition start_values {V : Type} (d : gmap string (jv V)) : list V :=
  match d !! "start" with
  | Some (JScalar v) => [v]
  | _ => []
  end.

Definition rounds_values {V : Type} (d : gmap string (jv V)) : list V :=
  match d !! "rounds" with
  | Some (JList vs) => vs
  | _ => []
  end.

Definition values_of {V : Type} (d : gmap string (jv V)) : list V :=
  start_values d ++ rounds_values d.

(** The first stored round index of a series is 0. *)
Definition starts_at_zero {V : Type} (series : list (Z * V)) : bool :=
  match series with
  | (r0, _) :: _ => (r0 =? 0)%Z
  | [] => false
  end.

(** A dict with one more value at the end of its [rounds] list. *)
Definition push_round {V : Type} (v : V) (d : gmap string (jv V))
  : gmap string (jv V) :=
  match d !! "rounds" with
  | Some (JList vs) => <["rounds" := JList (vs ++ [v])]> d
  | _ => d
  end.

Section FurtherVocabulary.

Context {Scalar : Type}.

(** The loop [for key in metrics] of the three metrics operations, run
    over the items of the mapping in the order the dict lists them. *)
Definition add_metrics_items (server_round : Z) (items : list (string * Scalar))
    (table : gmap string (list (Z * Scalar)))
  : gmap string (list (Z * Scalar)) :=
  foldl (λ table item, append_metric server_round item.1 item.2 table)
    table items.

(** The metric names a call passes to the table [t]. *)
Definition names_passed (t : table_id) (c : call Scalar) : gset string :=
  match t, c with
  | Fit, AddMetricsDistributedFit _ m => dom m
  | Evaluate, AddMetricsDistributed _ m => dom m
  | Centralized, AddMetricsCentralized _ m => dom m
  | _, _ => ∅
  end.

(** The accumulator an append call writes to. *)
Inductive accumulator : Type :=
  | LossDistributed
  | LossCentralized
  | Table (t : table_id).

Definition target (c : call Scalar) : accumulator :=
  match c with
  | AddLossDistributed _ _ => LossDistributed
  | AddLossCentralized _ _ => LossCentralized
  | AddMetricsDistributedFit _ _ => Table Fit
  | AddMetricsDistributed _ _ => Table Evaluate
  | AddMetricsCentralized _ _ => Table Centralized
  end.

(** The ledger holds nothing. *)
Definition is_empty_ledger (self : History Scalar) : Prop :=
  losses_distributed self = [] ∧ losses_centralized self = []
  ∧ metrics_distributed_fit self = ∅ ∧ metrics_distributed self = ∅
  ∧ metrics_centralized self = ∅.

End FurtherVocabulary.

(** Two series with the same values and other round indices, the items of
    a mapping of two metrics, and its two halves. *)
Definition sample_series : list (Z * float) := [(1, 0.5%float); (2, 0.25%float)].
Definition sample_series_shifted : list (Z * float) :=
  [(7, 0.5%float); (3, 0.25%float)].
Definition sample_items : list (string * float) :=
  [("accuracy", 0.5%float); ("recall", 0.75%float)].
Definition sample_accuracy : gmap string float := {[ "accuracy" := 0.5%float ]}.
Definition sample_recall : gmap string float := {[ "recall" := 0.75%float ]}.

Section FrameVocabulary.

Context {Scalar : Type}.

(** The section of the reports an accumulator is shown in. *)
Definition section_of (a : accumulator) : string :=
  match a with
  | LossDistributed => name_loss_distributed
  | LossCentralized => name_loss_centralized
  | Table Fit => name_metrics_fit
  | Table Evaluate => name_metrics_evaluate
  | Table Centralized => name_metrics_centralized
  end.

End FrameVocabulary.

(** ** The round-collapsing transform *)

(** On every value type, [reformat_json] raises [IndexError] on the empty
    series and on no other. *)
Lemma reformat_json_index_error {V : Type} `{!Numpy V} (series : list (Z * V)) :
  reformat_json series = Raise IndexError ↔ series = [].
Proof.
  destruct series as [|[r0 v0] rest]; [done|].
  unfold reformat_json, np_array. split; [|done].
  destruct (np_dtype _) as [dt|]; cbn; [|done].
  destruct (round_is_zero dt r0); [|done].
  by destruct (item_tolist dt v0).
Qed.

(** [reformat_json] on a series of floats that is not empty. *)
Lemma reformat_json_cons (r0 : Z) (v0 : float) (rest : list (Z * float)) :
  reformat_json ((r0, v0) :: rest) =
  if (r0 =? 0)%Z then
    if all_fit ((r0, v0) :: rest) then Ok (dict_start_rounds v0 rest.*2)
    else Raise AttributeError
  else Ok (dict_rounds (v0 :: rest.*2)).
Proof.
  unfold reformat_json, np_array, all_fit, dict_start_rounds, dict_rounds.
  cbn -[fits_64_bits forallb].
  destruct (r0 =? 0)%Z; rewrite ?list_fmap_id.
  - destruct (forallb _ _); cbn; [|done].
    by rewrite insert_insert_ne.
  - done.
Qed.


(** ** Facts about the metric tables *)

Section TableFacts.

Context {Scalar : Type}.
Implicit Types (table : gmap string (list (Z * Scalar))).
Implicit Types (metrics : gmap string Scalar).

Lemma lookup_append_metric r key (v : Scalar) table k :
  append_metric r key v table !! k =
  if decide (k = key) then Some (default [] (table !! key) ++ [(r, v)])
  else table !! k.
Proof.
  unfold append_metric. case_decide as Hk.
  - subst k. destruct (table !! key) as [series|] eqn:Hs; cbn.
    + by rewrite lookup_alter_eq, Hs.
    + by rewrite lookup_alter_eq, lookup_insert_eq.
  - rewrite lookup_alter_ne by done.
    destruct (table !! key); [done|]. by rewrite lookup_insert_ne.
Qed.

Lemma lookup_add_metrics r metrics table k :
  add_metrics r metrics table !! k =
  match metrics !! k with
  | Some v => Some (default [] (table !! k) ++ [(r, v)])
  | None => table !! k
  end.
Proof.
  unfold add_metrics. revert k.
  apply (map_fold_weak_ind (λ res m, ∀ k, res !! k =
    match m !! k with
    | Some v => Some (default [] (table !! k) ++ [(r, v)])
    | None => table !! k
    end)).
  - intros k. by rewrite lookup_empty.
  - intros i x m res Hi IH k.
    rewrite lookup_append_metric. case_decide as Hk.
    + subst k. by rewrite lookup_insert_eq, IH, Hi.
    + by rewrite lookup_insert_ne, IH.
Qed.

Lemma add_metrics_empty r table : add_metrics r ∅ table = table.
Proof. unfold add_metrics. by rewrite map_fold_empty. Qed.

Lemma grown_cons {A : Type} (series : option (list A)) (x : A) (more : list A) :
  grown (Some (default [] series ++ [x])) more = grown series (x :: more).
Proof.
  destruct more as [|y more]; cbn; [done|].
  by rewrite <- (assoc_L (++)).
Qed.

Lemma grown_Some {A : Type} (series more : list A) :
  grown (Some series) more = Some (series ++ more).
Proof. destruct more; cbn; [by rewrite (right_id_L [] (++))|done]. Qed.

(** One call on the table [t], at the key [key]. *)
Lemma table_of_perform (t : table_id) (key : string) (c : call Scalar)
    (self : History Scalar) :
  table_of t (exec (perform c) self) !! key =
  match metric_entry t key c with
  | Some e => Some (default [] (table_of t self !! key) ++ [e])
  | None => table_of t self !! key
  end.
Proof.
  destruct t, c; cbn; try done;
    rewrite lookup_add_metrics; by destruct (metrics !! key).
Qed.

Lemma table_of_run (t : table_id) (key : string) (calls : list (call Scalar))
    (self : History Scalar) :
  table_of t (run calls self) !! key =
  grown (table_of t self !! key) (metrics_log t key calls).
Proof.
  revert self. induction calls as [|c calls IH]; intros self; [done|].
  cbn. fold (run calls (exec (perform c) self)).
  rewrite IH, table_of_perform. unfold metrics_log. cbn.
  destruct (metric_entry t key c) as [e|]; [|done].
  apply grown_cons.
Qed.

Lemma losses_distributed_run (calls : list (call Scalar)) (self : History Scalar) :
  losses_distributed (run calls self) =
  losses_distributed self ++ loss_distributed_log calls.
Proof.
  revert self. induction calls as [|c calls IH]; intros self.
  - cbn. by rewrite (right_id_L [] (++)).
  - cbn. fold (run calls (exec (perform c) self)). rewrite IH.
    destruct c; cbn; try done. by rewrite <- (assoc_L (++)).
Qed.

Lemma losses_centralized_run (calls : list (call Scalar)) (self : History Scalar) :
  losses_centralized (run calls self) =
  losses_centralized self ++ loss_centralized_log calls.
Proof.
  revert self. induction calls as [|c calls IH]; intros self.
  - cbn. by rewrite (right_id_L [] (++)).
  - cbn. fold (run calls (exec (perform c) self)). rewrite IH.
    destruct c; cbn; try done. by rewrite <- (assoc_L (++)).
Qed.

End TableFacts.

(** ** Counting the calls behind a series *)

Section Counting.

Context {Scalar : Type}.

Lemma length_omap_filter {A B : Type} (f : A → option B) (p : A → bool)
    (l : list A) :
  (∀ x, p x = true ↔ is_Some (f x)) →
  length (omap f l) = length (List.filter p l).
Proof.
  intros Hp. induction l as [|x l IH]; [done|]. cbn.
  destruct (p x) eqn:Hpx.
  - apply Hp in Hpx as [y Hy]. rewrite Hy. cbn. by rewrite IH.
  - destruct (f x) as [y|] eqn:Hy; [|done].
    assert (p x = true) as Htrue by (apply Hp; eauto). congruence.
Qed.

Lemma passes_key_entry (t : table_id) (key : string) (c : call Scalar) :
  passes_key t key c = true ↔ is_Some (metric_entry t key c).
Proof.
  destruct t, c; cbn; try (split; [done|by intros [? ?]]);
    rewrite bool_decide_eq_true, elem_of_dom, fmap_is_Some; done.
Qed.

Lemma length_metrics_log (t : table_id) (key : string) (calls : list (call Scalar)) :
  length (metrics_log t key calls) = number_of_calls (passes_key t key) calls.
Proof. apply length_omap_filter. intros c. apply passes_key_entry. Qed.

Lemma length_loss_distributed_log (calls : list (call Scalar)) :
  length (loss_distributed_log calls) =
  number_of_calls is_add_loss_distributed calls.
Proof.
  apply length_omap_filter. intros []; cbn; split; try done; by intros [? ?].
Qed.

Lemma length_loss_centralized_log (calls : list (call Scalar)) :
  length (loss_centralized_log calls) =
  number_of_calls is_add_loss_centralized calls.
Proof.
  apply length_omap_filter. intros []; cbn; split; try done; by intros [? ?].
Qed.

Lemma series_length_grown {A : Type} (series : option (list A)) (more : list A) :
  series_length (grown series more) = (series_length series + length more)%nat.
Proof.
  unfold series_length. destruct more as [|x more]; cbn; [lia|].
  by rewrite length_app.
Qed.

End Counting.


(** ** Strings *)

Lemma append_assoc (s1 s2 s3 : string) : (s1 +:+ s2) +:+ s3 = s1 +:+ (s2 +:+ s3).
Proof.
  induction s1 as [|a s1 IH]; [done|].
  change (String a ((s1 +:+ s2) +:+ s3) = String a (s1 +:+ s2 +:+ s3)).
  by f_equal.
Qed.

Lemma append_nil_l (s : string) : "" +:+ s = s.
Proof. done. Qed.

Lemma append_nil_r (s : string) : s +:+ "" = s.
Proof.
  induction s as [|a s IH]; [done|].
  change (String a (s +:+ "") = String a s). by f_equal.
Qed.

Lemma foldl_append (a : string) (l : list string) :
  foldl String.append a l = a +:+ join_lines l.
Proof.
  revert a. induction l as [|x l IH]; intros a; cbn.
  - by rewrite append_nil_r.
  - by rewrite IH, append_assoc.
Qed.

Lemma truthy_size_empty {A : Type} : truthy (size (∅ : gmap string A)) = false.
Proof. done. Qed.

Lemma truthy_size_ne {A : Type} (m : gmap string A) :
  m ≠ ∅ → truthy (size m) = true.
Proof.
  intros Hm. unfold truthy. apply map_size_non_empty_iff in Hm.
  by destruct (size m).
Qed.

(** ** The two reports read the ledger and leave it alone *)

Section ReadFacts.

Context {Scalar : Type} `{!Numpy Scalar}.
Variable str_float : float → string.
Variable pformat : gmap string (list (Z * Scalar)) → string.

Lemma preserves_ret {A : Type} (a : A) : preserves (Scalar:=Scalar) (mret a).
Proof. done. Qed.

Lemma preserves_gets {A : Type} (field : History Scalar → A) :
  preserves (gets field).
Proof. done. Qed.

Lemma preserves_lift {A : Type} (r : result A) : preserves (Scalar:=Scalar) (lift r).
Proof. done. Qed.

Lemma preserves_bind {A B : Type} (m : M Scalar A) (f : A → M Scalar B) :
  preserves m → (∀ a, preserves (f a)) → preserves (m ≫= f).
Proof.
  intros Hm Hf self. unfold exec, mbind, M_bind.
  specialize (Hm self). unfold exec in Hm.
  destruct (m self) as [[a|e] self']; cbn in *; subst self'; [apply Hf|done].
Qed.

Lemma preserves_if {A : Type} (b : bool) (m1 m2 : M Scalar A) :
  preserves m1 → preserves m2 → preserves (if b then m1 else m2).
Proof. by destruct b. Qed.

Ltac preserves_tac :=
  repeat first
    [ apply preserves_ret | apply preserves_gets | apply preserves_lift
    | apply preserves_if | apply preserves_bind | intros ? ].

Lemma exec_repr_json (self : History Scalar) : exec repr_json self = self.
Proof.
  revert self. change (preserves (@repr_json Scalar _)).
  unfold repr_json. preserves_tac.
Qed.

Lemma exec_repr (self : History Scalar) :
  exec (__repr__ str_float pformat) self = self.
Proof.
  revert self. change (preserves (__repr__ str_float pformat)).
  unfold __repr__. preserves_tac.
Qed.

(** The text report, section by section. *)
Lemma repr_text (self : History Scalar) :
  eval (__repr__ str_float pformat) self =
  Ok (text_section (bool_decide (losses_distributed self ≠ []))
        name_loss_distributed
        (join_lines (loss_line str_float <$> losses_distributed self))
      +:+ text_section (bool_decide (losses_centralized self ≠ []))
        name_loss_centralized
        (join_lines (loss_line str_float <$> losses_centralized self))
      +:+ metrics_text pformat self).
Proof.
  destruct self as [ld lc tf td tc].
  unfold metrics_text, __repr__, eval, mbind, M_bind, mret, M_ret, gets, lift.
  cbn.
  destruct ld as [|e1 ld]; cbn.
  all: destruct lc as [|e2 lc]; cbn.
  all: destruct (decide (tf = ∅)) as [->|Hf];
    [rewrite truthy_size_empty|rewrite (truthy_size_ne _ Hf)]; cbn.
  all: destruct (decide (td = ∅)) as [->|Hd];
    [rewrite truthy_size_empty|rewrite (truthy_size_ne _ Hd)]; cbn.
  all: destruct (decide (tc = ∅)) as [->|Hc];
    [rewrite truthy_size_empty|rewrite (truthy_size_ne _ Hc)]; cbn.
  all: f_equal; unfold text_section.
  all: repeat case_bool_decide; try congruence.
  all: rewrite ?foldl_append, ?append_assoc, ?append_nil_l, ?append_nil_r.
  all: reflexivity.
Qed.


End ReadFacts.

(** ** The structured report, section by section *)

Section StructuredFacts.

Context {Scalar : Type} `{!Numpy Scalar}.
Implicit Types (table : gmap string (list (Z * Scalar))).

(** The loop over the names of a table: it returns the dicts of all
    series, or raises what [reformat_json] raises on one of them. *)
Lemma reformat_table_cases table :
  match reformat_table table with
  | Ok temp =>
      dom temp = dom table
      ∧ ∀ x series, table !! x = Some series →
          ∃ d, reformat_json series = Ok d ∧ temp !! x = Some d
  | Raise e =>
      ∃ x series, table !! x = Some series ∧ reformat_json series = Raise e
  end.
Proof.
  unfold reformat_table.
  apply (map_fold_weak_ind (λ res m,
    match res with
    | Ok temp =>
        dom temp = dom m
        ∧ ∀ x series, m !! x = Some series →
            ∃ d, reformat_json series = Ok d ∧ temp !! x = Some d
    | Raise e =>
        ∃ x series, m !! x = Some series ∧ reformat_json series = Raise e
    end)).
  - split; [by rewrite !dom_empty_L|]. intros x series Hx.
    by rewrite lookup_empty in Hx.
  - intros i series m res Hi IH. destruct res as [temp|e]; cbn.
    + destruct IH as [Hdom Hlook].
      destruct (reformat_json series) as [d|e] eqn:Hd; cbn.
      * split; [by rewrite !dom_insert_L, Hdom|].
        intros x series' Hx. destruct (decide (x = i)) as [->|Hne].
        -- rewrite lookup_insert_eq in Hx. injection Hx as <-.
           exists d. by rewrite lookup_insert_eq.
        -- rewrite lookup_insert_ne in Hx by done.
           destruct (Hlook x series' Hx) as (d' & Hd' & Hx').
           exists d'. by rewrite lookup_insert_ne.
      * exists i, series. by rewrite lookup_insert_eq.
    + destruct IH as (x & series' & Hx & He).
      exists x, series'. split; [|done].
      rewrite lookup_insert_ne; [done|]. intros ->. congruence.
Qed.

Lemma metrics_section_present name table
    (temp : gmap string (gmap string (jv Scalar)))
    (rep : gmap string (section_value Scalar)) :
  table ≠ ∅ →
  (dom temp = dom table
   ∧ ∀ x series, table !! x = Some series →
       ∃ d, reformat_json series = Ok d ∧ temp !! x = Some d) →
  rep !! name = Some (MetricsSection temp) →
  metrics_section_ok name table rep.
Proof.
  intros Hne [Hdom Hlook] Hrep. unfold metrics_section_ok.
  destruct (decide (table = ∅)) as [|_]; [done|]. eauto.
Qed.

Lemma metrics_section_absent name
    (rep : gmap string (section_value Scalar)) :
  rep !! name = None → metrics_section_ok name ∅ rep.
Proof. intros Hrep. unfold metrics_section_ok. by destruct (decide _). Qed.

Ltac simpl_report := cbn -[reformat_json reformat_table size].

Ltac loss_step l R :=
  let e := fresh "e" in let d := fresh "d" in let x := fresh "x" in
  destruct l as [|e l];
  [|destruct (reformat_json (e :: l)) as [d|x] eqn:R];
  simpl_report.

Ltac table_step t T R E :=
  let temp := fresh "temp" in let x := fresh "x" in
  destruct (decide (t = ∅)) as [->|E];
  [ change (truthy (size ∅)) with false
  | rewrite (truthy_size_ne _ E);
    pose proof (reformat_table_cases t) as T;
    destruct (reformat_table t) as [temp|x] eqn:R ];
  simpl_report.

Ltac raised_by_table T tid :=
  let x := fresh "x" in let series := fresh "series" in
  let Hx := fresh "Hx" in let He := fresh "He" in
  destruct T as (x & series & Hx & He);
  right; right; exists tid, x, series; by split.

(** The report [repr_json] returns, or the error it raises. *)
Lemma repr_json_cases (self : History Scalar) :
  match eval repr_json self with
  | Ok rep => report_sections self rep
  | Raise e => raised_by self e
  end.
Proof.
  destruct self as [ld lc tf td tc].
  unfold report_sections, raised_by.
  unfold repr_json, eval, mbind, M_bind, mret, M_ret, gets, lift.
  simpl_report.
  loss_step ld R1; try (by left).
  all: loss_step lc R2; try (by right; left).
  all: table_step tf Tf Rf Ef; try raised_by_table Tf Fit.
  all: table_step td Td Rd Ed; try raised_by_table Td Evaluate.
  all: table_step tc Tc Rc Ec; try raised_by_table Tc Centralized.
  all: split_and!.
  all: try reflexivity.
  all: try (eexists; split; [first [eassumption|reflexivity]|reflexivity]).
  all: try (by apply metrics_section_absent).
  all: try (by eapply metrics_section_present).
  all: intros key; rewrite ?lookup_insert, ?lookup_empty;
    repeat case_decide; subst; try (by intros [? ?]);
    intros _; unfold section_names;
    solve [repeat first [apply list_elem_of_here|apply list_elem_of_further]].
Qed.

Lemma repr_json_Ok (self : History Scalar) rep :
  eval repr_json self = Ok rep → report_sections self rep.
Proof. intros Hrep. pose proof (repr_json_cases self) as H'. by rewrite Hrep in H'. Qed.

Lemma repr_json_Raise (self : History Scalar) e :
  eval repr_json self = Raise e → raised_by self e.
Proof. intros Hrep. pose proof (repr_json_cases self) as H'. by rewrite Hrep in H'. Qed.

Lemma repr_json_succeeds (self : History Scalar) :
  transforms_succeed self ↔ ∃ rep, eval repr_json self = Ok rep.
Proof.
  split.
  - intros (H1 & H2 & H3).
    destruct (eval repr_json self) as [rep|e] eqn:Heval; [eauto|].
    apply repr_json_Raise in Heval as [[Hne He]|[[Hne He]|(t & key & series & Hk & He)]].
    + destruct (H1 Hne) as [d Hd]. congruence.
    + destruct (H2 Hne) as [d Hd]. congruence.
    + destruct (H3 t key series Hk) as [d Hd]. congruence.
  - intros [rep Hrep]. apply repr_json_Ok in Hrep as (L1 & L2 & T1 & T2 & T3 & _).
    split_and!.
    + destruct (losses_distributed self); [done|]. intros _.
      destruct L1 as (d & Hd & _). eauto.
    + destruct (losses_centralized self); [done|]. intros _.
      destruct L2 as (d & Hd & _). eauto.
    + intros t key series Hk.
      assert (∀ name table, metrics_section_ok name table rep →
                table !! key = Some series →
                ∃ d, reformat_json series = Ok d) as Hany.
      { intros name table Hok Hlook. unfold metrics_section_ok in Hok.
        destruct (decide (table = ∅)) as [->|_];
          [by rewrite lookup_empty in Hlook|].
        destruct Hok as (temp & _ & _ & Hall).
        destruct (Hall key series Hlook) as (d & Hd & _). eauto. }
      destruct t; cbn in Hk; eauto.
Qed.

Lemma repr_json_not_index_error (self : History Scalar) :
  no_empty_series self → eval repr_json self ≠ Raise IndexError.
Proof.
  intros Hne Heval.
  apply repr_json_Raise in Heval
    as [[Hl He]|[[Hl He]|(t & key & series & Hk & He)]].
  - by apply reformat_json_index_error in He.
  - by apply reformat_json_index_error in He.
  - apply reformat_json_index_error in He. by apply (Hne t key series).
Qed.

End StructuredFacts.
(** ** Ledgers reached by append calls *)

Section Reachable.

Context {Scalar : Type}.

Lemma no_empty_series_init : no_empty_series (Scalar:=Scalar) __init__.
Proof. intros [] key series; cbn; by rewrite lookup_empty. Qed.

Lemma no_empty_series_run (calls : list (call Scalar)) (self : History Scalar) :
  no_empty_series self → no_empty_series (run calls self).
Proof.
  intros Hne t key series. rewrite table_of_run.
  destruct (metrics_log t key calls) as [|e more]; cbn; [apply Hne|].
  intros [= <-] Hnil. by apply app_eq_nil in Hnil as [_ ?].
Qed.

End Reachable.

Section ReachableRounds.

Context {Scalar : Type}.




End ReachableRounds.


(** ** The claims *)



Section AppendClaims.

Context {Scalar : Type}.

(** C3: after any sequence of append calls, each loss series is the series
    before the calls followed by the pairs handed to its operation, in call
    order, and the series of each metric name in each table is the series
    before the calls followed by the pairs handed to that name in that
    table, in call order; on a fresh ledger the series are exactly these
    pairs.  The length of a series grows by the number of calls to its
    operation (for a metric name, the calls whose mapping holds the name). *)
Theorem append_only_series (calls : list (call Scalar)) (self : History Scalar) :
  losses_distributed (run calls self)
    = losses_distributed self ++ loss_distributed_log calls
  ∧ losses_centralized (run calls self)
    = losses_centralized self ++ loss_centralized_log calls
  ∧ (∀ t key, table_of t (run calls self) !! key
       = grown (table_of t self !! key) (metrics_log t key calls))
  ∧ losses_distributed (run calls __init__) = loss_distributed_log calls
  ∧ losses_centralized (run calls __init__) = loss_centralized_log calls
  ∧ (∀ t key, default [] (table_of t (run calls __init__) !! key)
       = metrics_log t key calls)
  ∧ length (losses_distributed (run calls self))
    = (length (losses_distributed self)
       + number_of_calls is_add_loss_distributed calls)%nat
  ∧ length (losses_centralized (run calls self))
    = (length (losses_centralized self)
       + number_of_calls is_add_loss_centralized calls)%nat
  ∧ (∀ t key, series_length (table_of t (run calls self) !! key)
       = (series_length (table_of t self !! key)
          + number_of_calls (passes_key t key) calls)%nat)
  ∧ length (losses_distributed (run calls __init__))
    = number_of_calls is_add_loss_distributed calls
  ∧ length (losses_centralized (run calls __init__))
    = number_of_calls is_add_loss_centralized calls
  ∧ (∀ t key, series_length (table_of t (run calls __init__) !! key)
       = number_of_calls (passes_key t key) calls).
Proof.
  assert (∀ t key, table_of t (__init__ (Scalar:=Scalar)) !! key = None) as Hinit
    by (intros [] key; apply lookup_empty).
  repeat split.
  - apply losses_distributed_run.
  - apply losses_centralized_run.
  - intros t key. apply table_of_run.
  - by rewrite losses_distributed_run.
  - by rewrite losses_centralized_run.
  - intros t key. rewrite table_of_run.
    assert (table_of t (__init__ (Scalar:=Scalar)) !! key = None) as ->
      by (destruct t; apply lookup_empty).
    by destruct (metrics_log t key calls).
  - by rewrite losses_distributed_run, length_app, length_loss_distributed_log.
  - by rewrite losses_centralized_run, length_app, length_loss_centralized_log.
  - intros t key.
    by rewrite table_of_run, series_length_grown, length_metrics_log.
  - by rewrite losses_distributed_run, length_app, length_loss_distributed_log.
  - by rewrite losses_centralized_run, length_app, length_loss_centralized_log.
  - intros t key.
    by rewrite table_of_run, series_length_grown, length_metrics_log, Hinit.
Qed.

(** C9: an append call changes its own accumulator only.  A loss call
    appends its pair to its loss series; a metrics call appends, for each
    name of its mapping, the pair of that name to the series of that name
    in its table and leaves the other names of the table alone; the four
    other accumulators are as before. *)
Theorem append_channels_independent (server_round : Z) (self : History Scalar) :
  (∀ loss,
     let self' := exec (add_loss_distributed server_round loss) self in
     losses_distributed self' = losses_distributed self ++ [(server_round, loss)]
     ∧ losses_centralized self' = losses_centralized self
     ∧ metrics_distributed_fit self' = metrics_distributed_fit self
     ∧ metrics_distributed self' = metrics_distributed self
     ∧ metrics_centralized self' = metrics_centralized self)
  ∧ (∀ loss,
       let self' := exec (add_loss_centralized server_round loss) self in
       losses_centralized self' = losses_centralized self ++ [(server_round, loss)]
       ∧ losses_distributed self' = losses_distributed self
       ∧ metrics_distributed_fit self' = metrics_distributed_fit self
       ∧ metrics_distributed self' = metrics_distributed self
       ∧ metrics_centralized self' = metrics_centralized self)
  ∧ (∀ metrics,
       let self' := exec (add_metrics_distributed_fit server_round metrics) self in
       (∀ key, metrics_distributed_fit self' !! key =
          match metrics !! key with
          | Some v => Some (default [] (metrics_distributed_fit self !! key)
                            ++ [(server_round, v)])
          | None => metrics_distributed_fit self !! key
          end)
       ∧ losses_distributed self' = losses_distributed self
       ∧ losses_centralized self' = losses_centralized self
       ∧ metrics_distributed self' = metrics_distributed self
       ∧ metrics_centralized self' = metrics_centralized self)
  ∧ (∀ metrics,
       let self' := exec (add_metrics_distributed server_round metrics) self in
       (∀ key, metrics_distributed self' !! key =
          match metrics !! key with
          | Some v => Some (default [] (metrics_distributed self !! key)
                            ++ [(server_round, v)])
          | None => metrics_distributed self !! key
          end)
       ∧ losses_distributed self' = losses_distributed self
       ∧ losses_centralized self' = losses_centralized self
       ∧ metrics_distributed_fit self' = metrics_distributed_fit self
       ∧ metrics_centralized self' = metrics_centralized self)
  ∧ (∀ metrics,
       let self' := exec (add_metrics_centralized server_round metrics) self in
       (∀ key, metrics_centralized self' !! key =
          match metrics !! key with
          | Some v => Some (default [] (metrics_centralized self !! key)
                            ++ [(server_round, v)])
          | None => metrics_centralized self !! key
          end)
       ∧ losses_distributed self' = losses_distributed self
       ∧ losses_centralized self' = losses_centralized self
       ∧ metrics_distributed_fit self' = metrics_distributed_fit self
       ∧ metrics_distributed self' = metrics_distributed self).
Proof.
  repeat split; try done; intros key; cbn; apply lookup_add_metrics.
Qed.

End AppendClaims.

Section LedgerClaims.

Context {Scalar : Type} `{!Numpy Scalar}.
Variable str_float : float → string.
Variable pformat : gmap string (list (Z * Scalar)) → string.

(** C6: a metric name stays a key of its table.  A series stored under a
    name is still stored under it after any further append calls, with the
    old entries first and the later pairs of that name behind them; a name
    passed by a call is a key after that call and any further calls; a name
    that was new, is passed once and is not passed to that table again has
    the series of that one pair; and the two reports leave the ledger as
    it is. *)
Theorem metric_key_persists (t : table_id) (key : string)
    (calls : list (call Scalar)) (self : History Scalar) :
  (∀ series, table_of t self !! key = Some series →
     table_of t (run calls self) !! key
     = Some (series ++ metrics_log t key calls))
  ∧ (∀ c e, metric_entry t key c = Some e →
       is_Some (table_of t (run (c :: calls) self) !! key))
  ∧ (∀ c e, metric_entry t key c = Some e →
       table_of t self !! key = None →
       metrics_log t key calls = [] →
       table_of t (run (c :: calls) self) !! key = Some [e])
  ∧ exec repr_json self = self
  ∧ exec (__repr__ str_float pformat) self = self.
Proof.
  split; [|split; [|split; [|split]]].
  - intros series Hs. by rewrite table_of_run, Hs, grown_Some.
  - intros c e He. rewrite table_of_run. unfold metrics_log. cbn.
    rewrite He. cbn. eauto.
  - intros c e He Hnew Hlater. rewrite table_of_run. unfold metrics_log. cbn.
    rewrite He. fold (metrics_log t key calls). by rewrite Hlater, Hnew.
  - apply exec_repr_json.
  - apply exec_repr.
Qed.

(** C10: a metrics call with the empty mapping leaves the ledger as it
    is, for each of the three metrics operations, so both reports are as
    before the call. *)
Theorem empty_metrics_noop (server_round : Z) (self : History Scalar) :
  let after_fit := exec (add_metrics_distributed_fit server_round ∅) self in
  let after_evaluate := exec (add_metrics_distributed server_round ∅) self in
  let after_centralized := exec (add_metrics_centralized server_round ∅) self in
  after_fit = self
  ∧ after_evaluate = self
  ∧ after_centralized = self
  ∧ eval repr_json after_fit = eval repr_json self
  ∧ eval repr_json after_evaluate = eval repr_json self
  ∧ eval repr_json after_centralized = eval repr_json self
  ∧ eval (__repr__ str_float pformat) after_fit
    = eval (__repr__ str_float pformat) self
  ∧ eval (__repr__ str_float pformat) after_evaluate
    = eval (__repr__ str_float pformat) self
  ∧ eval (__repr__ str_float pformat) after_centralized
    = eval (__repr__ str_float pformat) self.
Proof.
  cbn zeta.
  assert (exec (add_metrics_distributed_fit server_round ∅) self = self
          ∧ exec (add_metrics_distributed server_round ∅) self = self
          ∧ exec (add_metrics_centralized server_round ∅) self = self)
    as (H1 & H2 & H3).
  { destruct self. cbn. by rewrite !add_metrics_empty. }
  by rewrite H1, H2, H3.
Qed.

(** C8: the two reports are functions of the ledger.  Each leaves the
    five accumulators as they are, so a second call, made on the ledger
    the first call left, returns what the first call returned. *)
Theorem reports_read_only (self : History Scalar) :
  exec repr_json self = self
  ∧ exec (__repr__ str_float pformat) self = self
  ∧ eval repr_json (exec repr_json self) = eval repr_json self
  ∧ eval (__repr__ str_float pformat) (exec (__repr__ str_float pformat) self)
    = eval (__repr__ str_float pformat) self
  ∧ eval repr_json (exec (__repr__ str_float pformat) self) = eval repr_json self
  ∧ eval (__repr__ str_float pformat) (exec repr_json self)
    = eval (__repr__ str_float pformat) self.
Proof. by rewrite !exec_repr_json, !exec_repr. Qed.

(** C7: report generation never indexes an empty array.  After any
    sequence of append calls no metric name has an empty series, the loss
    series are passed to [reformat_json] behind their guards only, and
    [repr_json] does not raise [IndexError]: an exception it raises is
    one that [reformat_json] raises on a series with at least one entry.
    Nor does it raise [IndexError] on any ledger without an empty series
    under a metric name, whatever its loss series are; and
    [reformat_json] raises [IndexError] on the empty series only. *)
Theorem repr_json_no_index_error (calls : list (call Scalar)) :
  let self := run calls __init__ in
  no_empty_series self
  ∧ eval repr_json self ≠ Raise IndexError
  ∧ (∀ e, eval repr_json self = Raise e →
       ∃ series : list (Z * float) + list (Z * Scalar),
         match series with
         | inl losses => losses ≠ [] ∧ reformat_json losses = Raise e
         | inr series => series ≠ [] ∧ reformat_json series = Raise e
         end)
  ∧ (∀ other : History Scalar, no_empty_series other →
       eval repr_json other ≠ Raise IndexError)
  ∧ (∀ (V : Type) (numpy : Numpy V) (series : list (Z * V)),
       reformat_json series = Raise IndexError ↔ series = []).
Proof.
  cbn zeta.
  assert (no_empty_series (run calls (__init__ (Scalar:=Scalar)))) as Hne
    by apply no_empty_series_run, no_empty_series_init.
  split_and!; [done| | | |].
  - by apply repr_json_not_index_error.
  - intros e [[Hl He]|[[Hl He]|(t & key & series & Hk & He)]]%repr_json_Raise.
    + by exists (inl (losses_distributed (run calls __init__))).
    + by exists (inl (losses_centralized (run calls __init__))).
    + exists (inr series). split; [by eapply Hne|done].
  - intros other Hother. by apply repr_json_not_index_error.
  - intros V HV series. apply reformat_json_index_error.
Qed.



End LedgerClaims.


(** The report of the sample ledger, character by character. *)
Example sample_one_loss_report :
  eval (__repr__ str_float_sample pformat_sample) sample_one_loss
  = Ok ("History (loss, distributed):" +:+ nl +:+ tab +:+ "round 1: 0.5" +:+ nl).
Proof. reflexivity. Qed.

(** C6 on the sample calls: [accuracy] is passed once to the fit table,
    and is a key with that one pair after the later calls. *)
Lemma metric_key_persists_sample :
  table_of Fit (run (sample_fit_call :: sample_later_calls) __init__) !! "accuracy"
  = Some [(1, 0.5%float)].
Proof.
  apply (metric_key_persists str_float_sample pformat_sample
           Fit "accuracy" sample_later_calls __init__);
    reflexivity.
Defined.




(** ** Further properties of the round-collapsing transform *)

Lemma reformat_json_Ok_inv (series : list (Z * float)) d :
  reformat_json series = Ok d →
  ∃ r0 v0 rest, series = (r0, v0) :: rest
    ∧ d = if (r0 =? 0)%Z then dict_start_rounds v0 rest.*2
          else dict_rounds (v0 :: rest.*2).
Proof.
  destruct series as [|[r0 v0] rest]; [done|].
  rewrite reformat_json_cons. intros Hd. exists r0, v0, rest. split; [done|].
  destruct (r0 =? 0)%Z; [|by injection Hd].
  destruct (all_fit _); [by injection Hd|done].
Qed.

Lemma rounds_values_start_rounds {V : Type} (v : V) (vs : list V) :
  rounds_values (dict_start_rounds v vs) = vs.
Proof. done. Qed.

Lemma rounds_values_rounds {V : Type} (vs : list V) :
  rounds_values (dict_rounds vs) = vs.
Proof. done. Qed.

Lemma all_fit_snoc {V : Type} (series : list (Z * V)) (r : Z) (v : V) :
  all_fit (series ++ [(r, v)]) = all_fit series && fits_64_bits r.
Proof.
  unfold all_fit. rewrite fmap_app, forallb_app. cbn.
  by rewrite andb_true_r.
Qed.

(** X1: a dict that [reformat_json] returns on a series of floats holds
    every stored value once and in stored order (the start value, if any,
    then the rounds), has no key but [start] and [rounds], always has
    [rounds], has [start] exactly when the first stored round index is 0,
    and its [rounds] list is one shorter than the series in that case and
    as long as the series otherwise. *)
Theorem reformat_json_keeps_values (series : list (Z * float))
    (d : gmap string (jv float)) :
  reformat_json series = Ok d →
  values_of d = series.*2
  ∧ (∀ key, is_Some (d !! key) → key = "start" ∨ key = "rounds")
  ∧ is_Some (d !! "rounds")
  ∧ (is_Some (d !! "start") ↔ starts_at_zero series = true)
  ∧ length (rounds_values d)
    = (length series - (if starts_at_zero series then 1 else 0))%nat.
Proof.
  intros (r0 & v0 & rest & -> & ->)%reformat_json_Ok_inv. cbn.
  destruct (r0 =? 0)%Z; split_and!; try done.
  - intros key. unfold dict_start_rounds.
    rewrite !lookup_insert, lookup_empty.
    repeat case_decide; subst; eauto. by intros [? ?].
  - rewrite rounds_values_start_rounds, length_fmap. lia.
  - intros key. unfold dict_rounds.
    rewrite !lookup_insert, lookup_empty.
    repeat case_decide; subst; eauto. by intros [? ?].
  - split; [by intros [? ?]|done].
  - rewrite rounds_values_rounds. cbn. rewrite length_fmap. lia.
Qed.

Lemma reformat_json_keeps_values_sample :
  values_of (dict_rounds [0.5%float; 0.25%float]) = sample_series.*2.
Proof.
  refine (proj1 (reformat_json_keeps_values sample_series
                   (dict_rounds [0.5%float; 0.25%float]) _)).
  reflexivity.
Defined.

(** X2: on series of floats, [reformat_json] depends on the round indices
    only through whether the first is 0 and whether all of them fit 64
    bits: two series with the same values that agree on both give the
    same result. *)
Theorem reformat_json_drops_rounds (series1 series2 : list (Z * float)) :
  series1.*2 = series2.*2 →
  starts_at_zero series1 = starts_at_zero series2 →
  all_fit series1 = all_fit series2 →
  reformat_json series1 = reformat_json series2.
Proof.
  destruct series1 as [|[r1 v1] rest1], series2 as [|[r2 v2] rest2];
    try done.
  intros Hvalues Hzero Hfit. cbn in Hvalues, Hzero.
  injection Hvalues as -> Hrest.
  by rewrite !reformat_json_cons, Hzero, Hrest, Hfit.
Qed.

Lemma reformat_json_drops_rounds_sample :
  reformat_json sample_series = reformat_json sample_series_shifted.
Proof. apply reformat_json_drops_rounds; reflexivity. Defined.

(** X3: appending one pair whose round index fits 64 bits to a series of
    floats on which [reformat_json] returns a dict adds the value of the
    pair at the end of [rounds] and changes nothing else: the start value
    is fixed by the first entry, also when the new round index is 0. *)
Theorem reformat_json_snoc (series : list (Z * float)) (r : Z) (v : float)
    (d : gmap string (jv float)) :
  fits_64_bits r = true →
  reformat_json series = Ok d →
  reformat_json (series ++ [(r, v)]) = Ok (push_round v d).
Proof.
  intros Hr Hd. destruct series as [|[r0 v0] rest]; [done|].
  rewrite reformat_json_cons in Hd.
  change (((r0, v0) :: rest) ++ [(r, v)]) with ((r0, v0) :: (rest ++ [(r, v)])).
  rewrite reformat_json_cons.
  change ((r0, v0) :: (rest ++ [(r, v)])) with (((r0, v0) :: rest) ++ [(r, v)]).
  rewrite all_fit_snoc, Hr, andb_true_r, fmap_app.
  destruct (r0 =? 0)%Z, (all_fit ((r0, v0) :: rest)); try done;
    injection Hd as <-; reflexivity.
Qed.

Lemma reformat_json_snoc_sample :
  reformat_json (sample_series ++ [(0, 0.75%float)])
  = Ok (push_round 0.75%float (dict_rounds [0.5%float; 0.25%float])).
Proof. apply reformat_json_snoc; reflexivity. Defined.

(** ** Further properties of the metric tables *)

Section TableExtras.

Context {Scalar : Type}.
Implicit Types (table : gmap string (list (Z * Scalar))).
Implicit Types (metrics : gmap string Scalar).

Lemma dom_add_metrics r metrics table :
  dom (add_metrics r metrics table) = dom table ∪ dom metrics.
Proof.
  apply set_eq. intros k.
  rewrite elem_of_union, !elem_of_dom, lookup_add_metrics.
  destruct (metrics !! k) as [v|]; split; eauto.
  intros [H|H]; [done|by destruct H].
Qed.

Lemma dom_table_of_perform (t : table_id) (c : call Scalar) (self : History Scalar) :
  dom (table_of t (exec (perform c) self))
  = dom (table_of t self) ∪ names_passed t c.
Proof.
  destruct t, c; cbn;
    first [apply dom_add_metrics|by rewrite (right_id_L ∅ (∪))].
Qed.

(** X4: the keys of a metric table are the keys it had and the metric
    names passed to it since: after any sequence of append calls no name
    is missing, none is lost and none is made up. *)
Theorem table_keys_are_names_passed (t : table_id) (calls : list (call Scalar))
    (self : History Scalar) :
  dom (table_of t (run calls self))
  = dom (table_of t self) ∪ ⋃ (names_passed t <$> calls).
Proof.
  revert self. induction calls as [|c calls IH]; intros self.
  - cbn. by rewrite (right_id_L ∅ (∪)).
  - cbn. fold (run calls (exec (perform c) self)).
    by rewrite IH, dom_table_of_perform, (assoc_L (∪)).
Qed.

Lemma lookup_add_metrics_items r (items : list (string * Scalar)) table k :
  NoDup items.*1 →
  add_metrics_items r items table !! k =
  match (list_to_map items : gmap string Scalar) !! k with
  | Some v => Some (default [] (table !! k) ++ [(r, v)])
  | None => table !! k
  end.
Proof.
  revert table. induction items as [|[k0 v0] items IH]; intros table Hnd.
  - cbn. by rewrite lookup_empty.
  - apply NoDup_cons in Hnd as [Hk0 Hnd].
    change (add_metrics_items r ((k0, v0) :: items) table)
      with (add_metrics_items r items (append_metric r k0 v0 table)).
    rewrite IH by done. cbn. rewrite lookup_append_metric.
    destruct (decide (k = k0)) as [->|Hne].
    + rewrite lookup_insert_eq.
      by rewrite (not_elem_of_list_to_map_1 _ _ Hk0).
    + by rewrite lookup_insert_ne.
Qed.

(** X5: the loop of a metrics operation gives the same table in whatever
    order the mapping lists its items: run over the items one by one, in
    list order, it gives the table of [add_metrics] on the mapping of
    these items, and so the same table for every reordering of them. *)
Theorem add_metrics_any_order r (items : list (string * Scalar)) table :
  NoDup items.*1 →
  add_metrics_items r items table = add_metrics r (list_to_map items) table
  ∧ ∀ items', items' ≡ₚ items →
      add_metrics_items r items' table = add_metrics_items r items table.
Proof.
  intros Hnd.
  assert (∀ l : list (string * Scalar), NoDup l.*1 →
    add_metrics_items r l table = add_metrics r (list_to_map l) table) as Heq.
  { intros l Hl. apply map_eq. intros k.
    by rewrite lookup_add_metrics_items, lookup_add_metrics. }
  split; [by apply Heq|].
  intros items' Hperm.
  assert (NoDup items'.*1) as Hnd' by (by rewrite Hperm).
  rewrite !Heq by done. f_equal.
  by apply list_to_map_proper.
Qed.

Lemma add_metrics_union_table r (metrics1 metrics2 : gmap string Scalar) table :
  metrics1 ##ₘ metrics2 →
  add_metrics r (metrics1 ∪ metrics2) table
  = add_metrics r metrics2 (add_metrics r metrics1 table).
Proof.
  intros Hdisj. apply map_eq. intros k.
  rewrite !lookup_add_metrics.
  destruct (metrics1 !! k) as [v1|] eqn:H1, (metrics2 !! k) as [v2|] eqn:H2.
  - by destruct (map_disjoint_spec metrics1 metrics2) as [Hd _];
      destruct (Hd Hdisj k v1 v2).
  - by rewrite (lookup_union_Some_l _ _ _ _ H1).
  - by rewrite (lookup_union_Some_r _ _ _ _ Hdisj H2).
  - by rewrite (proj2 (lookup_union_None _ _ _) (conj H1 H2)).
Qed.

(** X6: one metrics call with a mapping is the same as one call, with the
    same round, for each of two parts of the mapping that share no name;
    this holds for each of the three metrics operations. *)
Theorem add_metrics_union (r : Z) (metrics1 metrics2 : gmap string Scalar)
    (self : History Scalar) :
  metrics1 ##ₘ metrics2 →
  run [AddMetricsDistributedFit r (metrics1 ∪ metrics2)] self
  = run [AddMetricsDistributedFit r metrics1;
         AddMetricsDistributedFit r metrics2] self
  ∧ run [AddMetricsDistributed r (metrics1 ∪ metrics2)] self
    = run [AddMetricsDistributed r metrics1;
           AddMetricsDistributed r metrics2] self
  ∧ run [AddMetricsCentralized r (metrics1 ∪ metrics2)] self
    = run [AddMetricsCentralized r metrics1;
           AddMetricsCentralized r metrics2] self.
Proof.
  intros Hdisj. split_and!; cbn; f_equal; by apply add_metrics_union_table.
Qed.

Lemma add_metrics_commute r1 r2 (metrics1 metrics2 : gmap string Scalar) table :
  dom metrics1 ## dom metrics2 →
  add_metrics r2 metrics2 (add_metrics r1 metrics1 table)
  = add_metrics r1 metrics1 (add_metrics r2 metrics2 table).
Proof.
  intros Hdisj. apply map_eq. intros k.
  rewrite !lookup_add_metrics.
  destruct (metrics1 !! k) as [v1|] eqn:H1, (metrics2 !! k) as [v2|] eqn:H2;
    try done.
  exfalso. apply (Hdisj k); apply elem_of_dom; eauto.
Qed.

(** X7: two append calls can be made in either order when they write to
    different accumulators, or to the same metric table with mappings that
    share no name: the ledger after the two calls is the same. *)
Theorem appends_commute (c1 c2 : call Scalar) (self : History Scalar) :
  (target c1 ≠ target c2
   ∨ ∃ t, target c1 = Table t ∧ target c2 = Table t
          ∧ names_passed t c1 ## names_passed t c2) →
  run [c1; c2] self = run [c2; c1] self.
Proof.
  intros [Hne|(t & Ht1 & Ht2 & Hdisj)].
  - destruct c1, c2; cbn in *; done.
  - destruct t, c1, c2; try done; cbn in *; f_equal;
      by apply add_metrics_commute.
Qed.

End TableExtras.


Lemma add_metrics_any_order_sample :
  add_metrics_items 1 sample_items ∅
  = add_metrics 1 (list_to_map sample_items) ∅.
Proof.
  refine (proj1 (add_metrics_any_order 1 sample_items ∅ _)).
  apply NoDup_cons_2; [|apply NoDup_singleton].
  intros Hin. apply list_elem_of_singleton in Hin. discriminate.
Defined.

Lemma add_metrics_union_sample :
  run [AddMetricsDistributedFit 1 (sample_accuracy ∪ sample_recall)] __init__
  = run [AddMetricsDistributedFit 1 sample_accuracy;
         AddMetricsDistributedFit 1 sample_recall] __init__.
Proof.
  refine (proj1 (add_metrics_union 1 sample_accuracy sample_recall __init__ _)).
  apply map_disjoint_spec. intros k x y H1 H2.
  unfold sample_accuracy, sample_recall in H1, H2.
  apply lookup_singleton_Some in H1 as [<- _].
  apply lookup_singleton_Some in H2 as [? _]. discriminate.
Defined.

Lemma appends_commute_sample :
  run [AddLossDistributed 2 0.25%float; sample_fit_call] __init__
  = run [sample_fit_call; AddLossDistributed 2 0.25%float] __init__.
Proof.
  refine (appends_commute (AddLossDistributed 2 0.25%float) sample_fit_call
            __init__ _).
  left. discriminate.
Defined.


(** ** Further properties of the reports *)

Lemma append_eq_nil (s1 s2 : string) : s1 +:+ s2 = "" → s1 = "" ∧ s2 = "".
Proof. destruct s1; [done|discriminate]. Qed.

Lemma text_section_eq_nil (present : bool) (a : ascii) (name body : string) :
  text_section present (String a name) body = "" → present = false.
Proof. destruct present; [discriminate|done]. Qed.

Section ReportExtras.

Context {Scalar : Type} `{!Numpy Scalar}.
Variable str_float : float → string.
Variable pformat : gmap string (list (Z * Scalar)) → string.
Implicit Types (table : gmap string (list (Z * Scalar))).

(** X8: on any ledger, also one whose tables were written to directly,
    [repr_json] returns a report exactly when [reformat_json] returns a
    dict on every loss series that is not empty and on the series of every
    metric name; an error it raises is one that [reformat_json] raises on
    one of these series; and when the error is [IndexError], some metric
    name has an empty series. *)
Theorem repr_json_raises_iff (self : History Scalar) :
  (transforms_succeed self ↔ ∃ rep, eval repr_json self = Ok rep)
  ∧ (∀ e, eval repr_json self = Raise e → raised_by self e)
  ∧ (eval repr_json self = Raise IndexError →
       ∃ t key, table_of t self !! key = Some []).
Proof.
  split_and!.
  - apply repr_json_succeeds.
  - intros e. apply repr_json_Raise.
  - intros [[Hl He]|[[Hl He]|(t & key & series & Hk & He)]]%repr_json_Raise.
    + by apply reformat_json_index_error in He.
    + by apply reformat_json_index_error in He.
    + apply reformat_json_index_error in He as ->. eauto.
Qed.

(** X9: a report is empty exactly for the empty ledger.  The text report
    is the empty string if and only if the two loss series and the three
    tables are empty, and [repr_json] returns the empty mapping if and
    only if they are. *)
Theorem empty_reports_iff (self : History Scalar) :
  (eval (__repr__ str_float pformat) self = Ok "" ↔ is_empty_ledger self)
  ∧ (eval repr_json self = Ok ∅ ↔ is_empty_ledger self).
Proof.
  assert (is_empty_ledger self → self = __init__) as Hinit.
  { destruct self. unfold is_empty_ledger. cbn.
    by intros (-> & -> & -> & -> & ->). }
  split; split.
  - rewrite repr_text. unfold metrics_text. intros [= Htext].
    apply append_eq_nil in Htext as [H1 Htext].
    apply append_eq_nil in Htext as [H2 Htext].
    apply append_eq_nil in Htext as [H3 Htext].
    apply append_eq_nil in Htext as [H4 H5].
    apply text_section_eq_nil, bool_decide_eq_false in H1.
    apply text_section_eq_nil, bool_decide_eq_false in H2.
    apply text_section_eq_nil, bool_decide_eq_false in H3.
    apply text_section_eq_nil, bool_decide_eq_false in H4.
    apply text_section_eq_nil, bool_decide_eq_false in H5.
    unfold is_empty_ledger. split_and!.
    + destruct (losses_distributed self); [done|by destruct H1].
    + destruct (losses_centralized self); [done|by destruct H2].
    + by destruct (decide (metrics_distributed_fit self = ∅)).
    + by destruct (decide (metrics_distributed self = ∅)).
    + by destruct (decide (metrics_centralized self = ∅)).
  - intros ->%Hinit. reflexivity.
  - intros (L1 & L2 & T1 & T2 & T3 & _)%repr_json_Ok.
    unfold is_empty_ledger. split_and!.
    + destruct (losses_distributed self); [done|].
      destruct L1 as (d & _ & Hd). by rewrite lookup_empty in Hd.
    + destruct (losses_centralized self); [done|].
      destruct L2 as (d & _ & Hd). by rewrite lookup_empty in Hd.
    + unfold metrics_section_ok in T1. destruct (decide _); [done|].
      destruct T1 as (temp & Ht & _). by rewrite lookup_empty in Ht.
    + unfold metrics_section_ok in T2. destruct (decide _); [done|].
      destruct T2 as (temp & Ht & _). by rewrite lookup_empty in Ht.
    + unfold metrics_section_ok in T3. destruct (decide _); [done|].
      destruct T3 as (temp & Ht & _). by rewrite lookup_empty in Ht.
  - intros ->%Hinit. reflexivity.
Qed.

End ReportExtras.

(** ** The sections of the structured report, one by one *)

Section FrameExtras.

Context {Scalar : Type} `{!Numpy Scalar}.
Implicit Types (table : gmap string (list (Z * Scalar))).
Implicit Types (rep : gmap string (section_value Scalar)).

Lemma loss_section_functional (name : string) (series : list (Z * float))
    rep rep' :
  loss_section_ok name series rep → loss_section_ok name series rep' →
  rep' !! name = rep !! name.
Proof.
  destruct series as [|e series]; cbn; [congruence|].
  intros (d & Hd & ->) (d' & Hd' & ->). congruence.
Qed.

Lemma metrics_section_functional (name : string) table rep rep' :
  metrics_section_ok name table rep → metrics_section_ok name table rep' →
  rep' !! name = rep !! name.
Proof.
  unfold metrics_section_ok. destruct (decide (table = ∅)); [congruence|].
  intros (temp & -> & Hdom & Hall) (temp' & -> & Hdom' & Hall').
  do 2 f_equal. apply map_eq. intros x.
  destruct (table !! x) as [series|] eqn:Hx.
  - destruct (Hall x series Hx) as (d & Hd & ->).
    destruct (Hall' x series Hx) as (d' & Hd' & ->). congruence.
  - assert (x ∉ dom table) as Hout by by apply not_elem_of_dom.
    rewrite (proj1 (not_elem_of_dom temp x)) by by rewrite Hdom.
    by rewrite (proj1 (not_elem_of_dom temp' x)) by by rewrite Hdom'.
Qed.

Lemma loss_section_is_Some (name : string) (series : list (Z * float)) rep :
  loss_section_ok name series rep → (is_Some (rep !! name) ↔ series ≠ []).
Proof.
  destruct series as [|e series]; cbn.
  - intros ->. split; [by intros [? ?]|done].
  - intros (d & _ & ->). split; [done|by eexists].
Qed.

Lemma metrics_section_is_Some (name : string) table rep :
  metrics_section_ok name table rep → (is_Some (rep !! name) ↔ table ≠ ∅).
Proof.
  unfold metrics_section_ok. destruct (decide (table = ∅)) as [->|Hne].
  - intros ->. split; [by intros [? ?]|done].
  - intros (temp & -> & _). split; [done|by eexists].
Qed.

Lemma run_snoc (calls : list (call Scalar)) (c : call Scalar)
    (self : History Scalar) :
  run (calls ++ [c]) self = exec (perform c) (run calls self).
Proof. unfold run. by rewrite foldl_snoc. Qed.

Lemma add_metrics_ne r (metrics : gmap string Scalar) table :
  table ≠ ∅ → add_metrics r metrics table ≠ ∅.
Proof.
  intros Hne Hempty. apply Hne. apply dom_empty_iff_L.
  assert (dom (add_metrics r metrics table) = ∅) as Hdom
    by (by rewrite Hempty, dom_empty_L).
  rewrite dom_add_metrics in Hdom. by apply empty_union_L in Hdom as [? _].
Qed.

(** X10: one more append call leaves every section of the structured
    report but its own as it was, and removes no section: when
    [repr_json] returns a report before and after the call, the two
    reports agree on every key other than the name of the accumulator the
    call writes to, and every key of the report before is a key of the
    report after. *)
Theorem report_sections_frame (calls : list (call Scalar)) (c : call Scalar)
    rep rep' :
  eval repr_json (run calls __init__) = Ok rep →
  eval repr_json (run (calls ++ [c]) __init__) = Ok rep' →
  (∀ key, key ≠ section_of (target c) → rep' !! key = rep !! key)
  ∧ (∀ key, is_Some (rep !! key) → is_Some (rep' !! key)).
Proof.
  rewrite run_snoc. generalize (run calls (__init__ (Scalar:=Scalar))).
  intros self (A1 & A2 & A3 & A4 & A5 & A6)%repr_json_Ok
              (B1 & B2 & B3 & B4 & B5 & B6)%repr_json_Ok.
  assert (∀ key, key ∉ section_names → rep !! key = None) as A7.
  { intros key Hout. destruct (rep !! key) eqn:Hk; [|done].
    destruct Hout. apply A6. by rewrite Hk. }
  assert (∀ key, key ∉ section_names → rep' !! key = None) as B7.
  { intros key Hout. destruct (rep' !! key) eqn:Hk; [|done].
    destruct Hout. apply B6. by rewrite Hk. }
  assert (∀ key, key ∈ section_names ∨ key ∉ section_names) as Hdec
    by (intros key; destruct (decide (key ∈ section_names)); eauto).
  split.
  - intros key Hkey. destruct (Hdec key) as [Hin|Hout];
      [|by rewrite A7, B7].
    unfold section_names in Hin. rewrite !elem_of_cons, elem_of_nil in Hin.
    destruct Hin as [->|[->|[->|[->|[->|[]]]]]];
      destruct c; cbn in *; try (by destruct Hkey);
      first [ by eapply loss_section_functional
            | by eapply metrics_section_functional ].
  - intros key Hsome. pose proof (A6 key Hsome) as Hin.
    unfold section_names in Hin. rewrite !elem_of_cons, elem_of_nil in Hin.
    destruct Hin as [->|[->|[->|[->|[->|[]]]]]].
    + apply (loss_section_is_Some _ _ _ A1) in Hsome.
      apply (loss_section_is_Some _ _ _ B1).
      destruct c; cbn; try done. by intros []%app_eq_nil.
    + apply (loss_section_is_Some _ _ _ A2) in Hsome.
      apply (loss_section_is_Some _ _ _ B2).
      destruct c; cbn; try done. by intros []%app_eq_nil.
    + apply (metrics_section_is_Some _ _ _ A3) in Hsome.
      apply (metrics_section_is_Some _ _ _ B3).
      destruct c; cbn; try done. by apply add_metrics_ne.
    + apply (metrics_section_is_Some _ _ _ A4) in Hsome.
      apply (metrics_section_is_Some _ _ _ B4).
      destruct c; cbn; try done. by apply add_metrics_ne.
    + apply (metrics_section_is_Some _ _ _ A5) in Hsome.
      apply (metrics_section_is_Some _ _ _ B5).
      destruct c; cbn; try done. by apply add_metrics_ne.
Qed.

End FrameExtras.

Lemma report_sections_frame_sample :
  (∀ key, key ≠ name_metrics_fit →
     sample_report_after !! key = sample_report_before !! key)
  ∧ (∀ key, is_Some (sample_report_before !! key) →
       is_Some (sample_report_after !! key)).
Proof.
  refine (report_sections_frame [AddLossDistributed 1 0.5%float]
            sample_fit_call sample_report_before sample_report_after _ _);
    reflexivity.
Defined.
